(** * neural_pipeline.data_processor: the train / validation orchestration

    A shallow embedding of [data_processor.py]: the two classes
    [DataProcessor] and [TrainDataProcessor], the objects they mutate
    (the batch dict, the model, the optimizer, the loss histories, the
    checkpoint files) and the properties of the orchestration contract. *)

From Stdlib Require Import ZArith PrimFloat.
From stdpp Require Import base option list strings gmap.

Set Warnings "-inexact-float,-register-all".

Local Open Scope Z_scope.
Local Open Scope string_scope.
Local Open Scope list_scope.

(** ** Values *)

(** The accelerator a tensor lives on; ['cuda:0'] is the only target the
    code ever transfers to. *)
Inductive Device := Cpu | Cuda0.

Record Tensor := { device : Device; values : list float }.

(** [v.to('cuda:0')] *)
Definition to_cuda (v : Tensor) : Tensor :=
  {| device := Cuda0; values := values v |}.

(** A batch entry is a tensor or a dict of entries (insertion ordered,
    as Python dicts are). *)
Inductive BatchValue :=
| Leaf (t : Tensor)
| Nested (d : list (string * BatchValue)).

(** The dict every batch is: keys ['data'] and ['target']. *)
Abbreviation Batch := (gmap string BatchValue).

(** ** numpy arrays of loss values

    Only two shapes occur: [()] (a zero-dimensional array, which holds
    exactly one number) and [(n,)]. *)
Inductive ndarray :=
| Arr0 (x : float)
| Arr1 (xs : list float).

Definition ravel (a : ndarray) : list float :=
  match a with Arr0 x => [x] | Arr1 xs => xs end.

(** [a.size] *)
Definition size_of (a : ndarray) : nat := length (ravel a).

(** [a.ndim] *)
Definition ndim (a : ndarray) : nat :=
  match a with Arr0 _ => 0%nat | Arr1 _ => 1%nat end.

(** [np.array([])]: shape [(0,)]. *)
Definition np_array_nil : ndarray := Arr1 [].

(** [np.ndarray([])]: the first argument of the [ndarray] constructor is
    the shape, so this is an array of shape [()] whose single element is
    whatever the allocated memory held; [junk] stands for that content. *)
Definition np_ndarray_nil (junk : float) : ndarray := Arr0 junk.

(** [np.append(arr, values)] with no axis: both are flattened. *)
Definition np_append (arr vals : ndarray) : ndarray :=
  Arr1 (ravel arr ++ ravel vals).

(** An empty sequence of losses. *)
Definition is_empty_sequence (a : ndarray) : Prop := a = Arr1 [].

(** ** Exceptions, observable steps and the effect monad *)

Inductive exn :=
| CheckpointMissing          (* an artifact is absent: what [torch.load] and [open] raise *)
| KeyError (k : string)      (* [d[k]] on a dict without [k] *)
| IndexError                 (* [a[-1]] on an array without a last item *)
| MetricsFailure             (* whatever [calc_metrics] raised *)
| OptimizerStateRejected     (* whatever [load_state_dict] raised *)
| StateCorrupt.              (* what [json.load] raises on text that is not JSON *)

Inductive res (A : Type) :=
| Ok (a : A)
| Raise (e : exn).
Arguments Ok {A} a.
Arguments Raise {A} e.

Abbreviation Weights := (list float).

(** What one [loss.backward()] adds to the [.grad] of the parameters:
    the gradient of the loss of this output against this target. *)
Record Gradient := { from_output : Tensor; from_target : BatchValue }.

(** The calls a method makes, in program order. *)
Inductive Event :=
| EvZeroGrad
| EvForward (training grad_enabled : bool) (data : BatchValue)
| EvMetrics (output : Tensor) (target : BatchValue) (is_train : bool)
| EvLoss (output : Tensor) (target : BatchValue)
| EvBackward (g : Gradient)
| EvStep (accumulated : list Gradient)
| EvAppend (is_train : bool) (loss : float).

(** A method body over the mutable state [S]: it returns or raises, and
    what it wrote before raising stays written. *)
Definition M (S A : Type) : Type := S -> res A * S * list Event.

#[global] Instance M_ret {S} : MRet (M S) := fun A a s => (Ok a, s, []).

#[global] Instance M_bind {S} : MBind (M S) := fun A B f m s =>
  match m s with
  | (Ok a, s1, l1) => let '(r, s2, l2) := f a s1 in (r, s2, l1 ++ l2)
  | (Raise e, s1, l1) => (Raise e, s1, l1)
  end.

Definition raise {S A} (e : exn) : M S A := fun s => (Raise e, s, []).
Definition gets {S A} (f : S -> A) : M S A := fun s => (Ok (f s), s, []).
Definition modify {S} (f : S -> S) : M S unit := fun s => (Ok tt, f s, []).
Definition emit {S} (ev : Event) : M S unit := fun s => (Ok tt, s, [ev]).
Definition when {S} (b : bool) (m : M S unit) : M S unit :=
  if b then m else mret tt.

(** Run a body written over a part [T] of the state [S]. *)
Definition zoom {S T A} (proj : S -> T) (upd : T -> S -> S) (m : M T A) : M S A :=
  fun s => let '(r, t, l) := m (proj s) in (r, upd t s, l).

Definition result {S A} (o : res A * S * list Event) : res A := o.1.1.
Definition final {S A} (o : res A * S * list Event) : S := o.1.2.
Definition calls {S A} (o : res A * S * list Event) : list Event := o.2.

(** A method call that receives a dict by reference: the receiver and
    the dict are both reachable, and both may be written. *)
Record Call (Self : Type) := { self : Self; arg : Batch }.
Arguments self {Self} c.
Arguments arg {Self} c.

Definition on_self {Self A} (m : M Self A) : M (Call Self) A :=
  zoom self (fun s c => {| self := s; arg := arg c |}) m.

(** [arg[k]] *)
Definition getitem {Self} (k : string) : M (Call Self) BatchValue :=
  fun c => match arg c !! k with
           | Some v => (Ok v, c, [])
           | None => (Raise (KeyError k), c, [])
           end.

(** [arg[k] = v] *)
Definition setitem {Self} (k : string) (v : BatchValue) : M (Call Self) unit :=
  modify (fun c => {| self := self c; arg := <[k := v]> (arg c) |}).

(** ** The optimizer and the other collaborators *)

(** One parameter group: a dict of hyper-parameters, ['lr'] among them. *)
Abbreviation ParamGroup := (gmap string float).

(** The entries of an optimizer's serialised state. *)
Inductive OptVal :=
| Groups (gs : list ParamGroup)
| Buffers (b : list float).

(** The optimizer holds its parameter groups, its own buffers and, through
    the parameters it was built over, their accumulated gradients. *)
Record Optimizer := {
  param_groups : list ParamGroup;
  buffers : list float;
  grad : list Gradient
}.

(** [optimizer.zero_grad()] *)
Definition zero_grad (o : Optimizer) : Optimizer :=
  {| param_groups := param_groups o; buffers := buffers o; grad := [] |}.

(** [loss.backward()]: gradients accumulate until they are zeroed. *)
Definition backward (g : Gradient) (o : Optimizer) : Optimizer :=
  {| param_groups := param_groups o; buffers := buffers o; grad := grad o ++ [g] |}.

(** The metrics collector: named series of values. *)
Abbreviation MetricsProcessor := (gmap string (list float)).

(** What the network, the objective, the metrics collector and the
    optimizer implementation compute is theirs to choose; the
    orchestration is written against these operations. [None] is a call
    that raises. *)
Class Collaborators := {
  forward : bool -> Weights -> BatchValue -> Tensor;
  criterion : Tensor -> BatchValue -> float;
  calc_metrics : Tensor -> BatchValue -> bool -> MetricsProcessor -> option MetricsProcessor;
  optimizer_step : Optimizer -> Weights -> Optimizer * Weights;
  state_dict : Optimizer -> gmap string OptVal;
  load_state_dict : gmap string OptVal -> Optimizer -> option Optimizer
}.

(** What [train_pipeline] hands to the constructor. *)
Record TrainConfig := {
  tc_metrics_processor : MetricsProcessor;
  tc_learning_rate : float;
  tc_optimizer : Optimizer
}.

(** ** Checkpoint artifacts *)

(** The dict [save_state] dumps. *)
Record DpState := { last_epoch_idx : Z; lr : float }.

(** What [json.load] makes of the structured state file when the text
    is JSON: the document, of which only the entries under
    ['last_epoch_idx'] and ['lr'] are ever read. Either entry may be
    missing; one that is there is a number of the kind [save_state]
    writes. *)
Record Document := { epoch_entry : option Z; lr_entry : option float }.

(** The structured state file: text that is not JSON, or a document. *)
Inductive StateFile :=
| Malformed
| Json (d : Document).

(** [json.dump] of the dict of [save_state]. It writes a float with
    [repr], which [json.load] reads back to the same float. *)
Definition json_dump (d : DpState) : StateFile :=
  Json {| epoch_entry := Some (last_epoch_idx d); lr_entry := Some (lr d) |}.

(** The three paths the file structure manager resolves, each with the
    content of the file there, if there is one. *)
Record Files := {
  optimizer_state_file : option (gmap string OptVal);
  data_processor_state_file : option StateFile;
  weights_file : option Weights
}.

(** [torch.load(path)] *)
Definition read_file {S A} (f : option A) : M S A :=
  match f with
  | Some content => mret content
  | None => raise CheckpointMissing
  end.

(** [json.load(in_file)] on [open(path, 'r')] *)
Definition json_load {S} (f : option StateFile) : M S Document :=
  match f with
  | None => raise CheckpointMissing
  | Some Malformed => raise StateCorrupt
  | Some (Json d) => mret d
  end.

(** [dp_state[k]] *)
Definition entry {S A} (k : string) (v : option A) : M S A :=
  match v with
  | Some x => mret x
  | None => raise (KeyError k)
  end.

(** ** Model *)

Module Model.
Section Model.
Context `{co : Collaborators}.

Record t := { training : bool; weights : Weights; on_cuda : bool }.

Definition init (model : Weights) : t :=
  {| training := true; weights := model; on_cuda := false |}.

(** [model().cuda()], [model().train()], [model().eval()] *)
Definition cuda (m : t) : t :=
  {| training := training m; weights := weights m; on_cuda := true |}.
Definition train (m : t) : t :=
  {| training := true; weights := weights m; on_cuda := on_cuda m |}.
Definition eval (m : t) : t :=
  {| training := false; weights := weights m; on_cuda := on_cuda m |}.
Definition set_weights (w : Weights) (m : t) : t :=
  {| training := training m; weights := w; on_cuda := on_cuda m |}.

(** Modelled from the spec: [Model.__call__] of [model.py], the forward
    pass of the wrapped network in its current mode. *)
Definition call (grad_enabled : bool) (data : BatchValue) : M t Tensor :=
  fun m => (Ok (forward (training m) (weights m) data), m,
            [EvForward (training m) grad_enabled data]).

(** Modelled from the spec: [Model.load_weights] of [model.py], which
    restores the weights and fails when the weight artifact is absent. *)
Definition load_weights (fs : Files) : M t unit :=
  w ← read_file (weights_file fs);
  modify (set_weights w).

(** Modelled from the spec: [Model.save_weights] of [model.py], which
    writes the weight artifact. *)
Definition save_weights (m : t) (fs : Files) : Files :=
  {| optimizer_state_file := optimizer_state_file fs;
     data_processor_state_file := data_processor_state_file fs;
     weights_file := Some (weights m) |}.
End Model.
End Model.

(** ** DataProcessor *)

(** Modelled from the spec: [dict_recursive_bypass] of [utils.py], the
    traversal that applies [on_node] to every leaf of a nested dict. *)
Fixpoint bypass_value (on_node : Tensor -> Tensor) (v : BatchValue) : BatchValue :=
  match v with
  | Leaf t => Leaf (on_node t)
  | Nested d => Nested (map (fun kv => (kv.1, bypass_value on_node kv.2)) d)
  end.

Definition dict_recursive_bypass (dictionary : list (string * BatchValue))
    (on_node : Tensor -> Tensor) : list (string * BatchValue) :=
  map (fun kv => (kv.1, bypass_value on_node kv.2)) dictionary.

Module DataProcessor.
Section DataProcessor.
Context `{co : Collaborators}.

Record t := { _is_cuda : bool; _model : Model.t }.

Definition with_model (f : Model.t -> Model.t) (s : t) : t :=
  {| _is_cuda := _is_cuda s; _model := f (_model s) |}.

Definition on_model {A} (m : M Model.t A) : M t A :=
  zoom _model (fun md s => with_model (fun _ => md) s) m.

Definition __init__ (model : Weights) (is_cuda : bool) : t :=
  {| _is_cuda := is_cuda;
     _model := if is_cuda then Model.cuda (Model.init model) else Model.init model |}.

Definition _process_data (data : BatchValue) : BatchValue :=
  match data with
  | Nested d => Nested (dict_recursive_bypass d to_cuda)
  | Leaf v => Leaf (to_cuda v)
  end.

(** The nested [make_predict] of [predict]. *)
Definition make_predict (grad_enabled : bool) : M (Call t) Tensor :=
  is_cuda ← gets (fun c => _is_cuda (self c));
  when is_cuda (d ← getitem "data"; setitem "data" (_process_data d)) ;;
  d ← getitem "data";
  on_self (on_model (Model.call grad_enabled d)).

Definition predict : M (Call t) Tensor :=
  on_self (modify (with_model Model.eval)) ;;
  make_predict false.

Definition load (fs : Files) : M t unit :=
  on_model (Model.load_weights fs).
End DataProcessor.
End DataProcessor.

(** ** TrainDataProcessor *)

Module TrainDataProcessor.
Section TrainDataProcessor.
Context `{co : Collaborators}.

Record t := {
  super : DataProcessor.t;
  metrics_processor : MetricsProcessor;
  __learning_rate : float;        (* the value the learning-rate holder reports *)
  __optimizer : Optimizer;
  __epoch_num : Z;
  __val_loss_values : ndarray;
  __train_loss_values : ndarray
}.

Definition set_super (d : DataProcessor.t) (s : t) : t :=
  {| super := d; metrics_processor := metrics_processor s;
     __learning_rate := __learning_rate s; __optimizer := __optimizer s;
     __epoch_num := __epoch_num s; __val_loss_values := __val_loss_values s;
     __train_loss_values := __train_loss_values s |}.
Definition set_metrics_processor (mp : MetricsProcessor) (s : t) : t :=
  {| super := super s; metrics_processor := mp;
     __learning_rate := __learning_rate s; __optimizer := __optimizer s;
     __epoch_num := __epoch_num s; __val_loss_values := __val_loss_values s;
     __train_loss_values := __train_loss_values s |}.
Definition set_learning_rate (v : float) (s : t) : t :=
  {| super := super s; metrics_processor := metrics_processor s;
     __learning_rate := v; __optimizer := __optimizer s;
     __epoch_num := __epoch_num s; __val_loss_values := __val_loss_values s;
     __train_loss_values := __train_loss_values s |}.
Definition set_optimizer (o : Optimizer) (s : t) : t :=
  {| super := super s; metrics_processor := metrics_processor s;
     __learning_rate := __learning_rate s; __optimizer := o;
     __epoch_num := __epoch_num s; __val_loss_values := __val_loss_values s;
     __train_loss_values := __train_loss_values s |}.
Definition set_epoch_num (n : Z) (s : t) : t :=
  {| super := super s; metrics_processor := metrics_processor s;
     __learning_rate := __learning_rate s; __optimizer := __optimizer s;
     __epoch_num := n; __val_loss_values := __val_loss_values s;
     __train_loss_values := __train_loss_values s |}.
Definition set_val_loss_values (a : ndarray) (s : t) : t :=
  {| super := super s; metrics_processor := metrics_processor s;
     __learning_rate := __learning_rate s; __optimizer := __optimizer s;
     __epoch_num := __epoch_num s; __val_loss_values := a;
     __train_loss_values := __train_loss_values s |}.
Definition set_train_loss_values (a : ndarray) (s : t) : t :=
  {| super := super s; metrics_processor := metrics_processor s;
     __learning_rate := __learning_rate s; __optimizer := __optimizer s;
     __epoch_num := __epoch_num s; __val_loss_values := __val_loss_values s;
     __train_loss_values := a |}.

Definition model (s : t) : Model.t := DataProcessor._model (super s).
Definition is_cuda (s : t) : bool := DataProcessor._is_cuda (super s).

Definition on_super {A} (m : M DataProcessor.t A) : M t A :=
  zoom super set_super m.

(** A method of the base class run on this object, with the same dict. *)
Definition as_super {A} (m : M (Call DataProcessor.t) A) : M (Call t) A :=
  zoom (fun c => {| self := super (self c); arg := arg c |})
       (fun c' c => {| self := set_super (self c') (self c); arg := arg c' |}) m.

Definition __init__ (model : Weights) (train_pipeline : TrainConfig) (is_cuda : bool) : t :=
  {| super := DataProcessor.__init__ model is_cuda;
     metrics_processor := tc_metrics_processor train_pipeline;
     __learning_rate := tc_learning_rate train_pipeline;
     __optimizer := tc_optimizer train_pipeline;
     __epoch_num := 0;
     __val_loss_values := np_array_nil;
     __train_loss_values := np_array_nil |}.

(** The nested [make_predict] of [predict], called with gradients on. *)
Definition make_predict : M (Call t) Tensor :=
  cuda ← gets (fun c => is_cuda (self c));
  when cuda (d ← getitem "data"; setitem "data" (DataProcessor._process_data d)) ;;
  d ← getitem "data";
  on_self (on_super (DataProcessor.on_model (Model.call true d))).

Definition predict (is_train : bool) : M (Call t) Tensor :=
  if is_train then
    on_self (on_super (modify (DataProcessor.with_model Model.train))) ;;
    make_predict
  else
    on_self (on_super (modify (DataProcessor.with_model Model.eval))) ;;
    as_super DataProcessor.predict.

(** [self.metrics_processor.calc_metrics(res, target, is_train)] *)
Definition call_metrics (output : Tensor) (target : BatchValue) (is_train : bool) : M t unit :=
  fun s => match calc_metrics output target is_train (metrics_processor s) with
           | Some mp => (Ok tt, set_metrics_processor mp s, [EvMetrics output target is_train])
           | None => (Raise MetricsFailure, s, [EvMetrics output target is_train])
           end.

(** [self.__optimizer.step()]: the optimizer updates the parameters of
    the model it was built over. *)
Definition step : M t unit :=
  fun s => let '(o, w) := optimizer_step (__optimizer s) (Model.weights (model s)) in
           (Ok tt,
            set_optimizer o (set_super (DataProcessor.with_model (Model.set_weights w) (super s)) s),
            [EvStep (grad (__optimizer s))]).

Definition process_batch (is_train : bool) : M (Call t) unit :=
  cuda ← gets (fun c => is_cuda (self c));
  when cuda (tg ← getitem "target"; setitem "target" (DataProcessor._process_data tg)) ;;
  when is_train (emit EvZeroGrad ;; on_self (modify (fun s => set_optimizer (zero_grad (__optimizer s)) s))) ;;
  out ← predict is_train;
  tg ← getitem "target";
  on_self (call_metrics out tg is_train) ;;
  tg ← getitem "target";
  emit (EvLoss out tg) ;;
  let loss := criterion out tg in
  let g := {| from_output := out; from_target := tg |} in
  when is_train (
    emit (EvBackward g) ;;
    on_self (modify (fun s => set_optimizer (backward g (__optimizer s)) s)) ;;
    on_self step) ;;
  let loss_arr := Arr0 loss in
  emit (EvAppend is_train loss) ;;
  if is_train then
    on_self (modify (fun s => set_train_loss_values (np_append (__train_loss_values s) loss_arr) s))
  else
    on_self (modify (fun s => set_val_loss_values (np_append (__val_loss_values s) loss_arr) s)).

(** One iteration of a [for batch in t] loop: the dict comes from the
    loader and goes back to it. *)
Definition with_batch {A} (batch : Batch) (m : M (Call t) A) : M t A :=
  fun s => let '(r, c, l) := m {| self := s; arg := batch |} in (r, self c, l).

(** [a[-1]], read for the progress bar. *)
Definition last_item (a : ndarray) : M t float :=
  match a with
  | Arr1 xs => match last xs with Some x => mret x | None => raise IndexError end
  | Arr0 _ => raise IndexError
  end.

Fixpoint each_batch (is_train : bool) (dataloader : list Batch) : M t unit :=
  match dataloader with
  | [] => mret tt
  | batch :: rest =>
      with_batch batch (process_batch is_train) ;;
      a ← gets (if is_train then __train_loss_values else __val_loss_values);
      _ ← last_item a;
      each_batch is_train rest
  end.

Definition train_epoch (train_dataloader validation_dataloader : list Batch)
    (epoch_idx : Z) : M t unit :=
  each_batch true train_dataloader ;;
  each_batch false validation_dataloader ;;
  modify (set_epoch_num epoch_idx).

Definition update_lr (lr : float) (s : t) : t :=
  set_optimizer
    {| param_groups := map (fun param_group => <["lr" := lr]> param_group)
                           (param_groups (__optimizer s));
       buffers := buffers (__optimizer s);
       grad := grad (__optimizer s) |} s.

Definition get_last_epoch_idx (s : t) : Z := __epoch_num s.

Definition get_state (s : t) : Weights * gmap string OptVal :=
  (Model.weights (model s), state_dict (__optimizer s)).

(** [self.__optimizer.load_state_dict(state)] *)
Definition load_optimizer (state : gmap string OptVal) : M t unit :=
  fun s => match load_state_dict state (__optimizer s) with
           | Some o => (Ok tt, set_optimizer o s, [])
           | None => (Raise OptimizerStateRejected, s, [])
           end.

Definition load (fs : Files) : M t unit :=
  on_super (DataProcessor.load fs) ;;
  state ← read_file (optimizer_state_file fs);
  own ← gets (fun s => state_dict (__optimizer s));
  let state := filter (fun kv => is_Some (own !! kv.1)) state in
  load_optimizer state ;;
  dp_state ← json_load (data_processor_state_file fs);
  e ← entry "last_epoch_idx" (epoch_entry dp_state);
  modify (set_epoch_num e) ;;
  r ← entry "lr" (lr_entry dp_state);
  modify (update_lr r) ;;
  r ← entry "lr" (lr_entry dp_state);
  modify (set_learning_rate r).

Definition save_state (s : t) (fs : Files) : Files :=
  let fs := {| optimizer_state_file := Some (state_dict (__optimizer s));
               data_processor_state_file := data_processor_state_file fs;
               weights_file := weights_file fs |} in
  let fs := {| optimizer_state_file := optimizer_state_file fs;
               data_processor_state_file :=
                 Some (json_dump {| last_epoch_idx := __epoch_num s;
                                    lr := __learning_rate s |});
               weights_file := weights_file fs |} in
  Model.save_weights (model s) fs.

Definition get_losses (s : t) : gmap string ndarray :=
  {[ "train" := __val_loss_values s; "validation" := __train_loss_values s ]}.

(** The two junk values are what the two fresh [np.ndarray([])] hold. *)
Definition reset_losses (junk_val junk_train : float) (s : t) : t :=
  set_train_loss_values (np_ndarray_nil junk_train)
    (set_val_loss_values (np_ndarray_nil junk_val) s).
End TrainDataProcessor.
End TrainDataProcessor.

(** ** The instance over its lifetime *)




(** A method body that leaves an observation of the state as it was. *)
Definition keeps {S A X : Type} (f : S -> X) (m : M S A) : Prop :=
  forall s, f (final (m s)) = f s.


(** ** Vocabulary of the properties *)

(** The tensors of a batch entry, left to right. *)
Fixpoint leaves (v : BatchValue) : list Tensor :=
  match v with
  | Leaf t => [t]
  | Nested d => flat_map (fun kv => leaves kv.2) d
  end.

(** What a batch entry is once a call has passed it. *)
Definition moved (cuda : bool) (v : BatchValue) : BatchValue :=
  if cuda then DataProcessor._process_data v else v.

Definition moved_batch (cuda : bool) (d tg : BatchValue) (b : Batch) : Batch :=
  if cuda
  then <["data" := DataProcessor._process_data d]>
         (<["target" := DataProcessor._process_data tg]> b)
  else b.

(** A saved blob restricted to a set of keys. *)
Definition restricted_to (keys : gset string) (blob : gmap string OptVal) : gmap string OptVal :=
  filter (fun kv => kv.1 ∈ keys) blob.

(** The learning rates of the parameter groups, group by group. *)
Definition group_rates (o : Optimizer) : list (option float) :=
  map (fun param_group => param_group !! "lr") (param_groups o).

(** The instance a [load] that finds everything leaves behind. *)
Definition loaded (w : Weights) (o : Optimizer) (dp : DpState)
    (s : TrainDataProcessor.t) : TrainDataProcessor.t :=
  TrainDataProcessor.set_learning_rate (lr dp)
    (TrainDataProcessor.update_lr (lr dp)
      (TrainDataProcessor.set_epoch_num (last_epoch_idx dp)
        (TrainDataProcessor.set_optimizer o
          (TrainDataProcessor.set_super
             (DataProcessor.with_model
                (fun _ => Model.set_weights w (TrainDataProcessor.model s))
                (TrainDataProcessor.super s)) s)))).

(** The calls of one batch that runs to its end, in program order. *)
Definition batch_calls (is_train : bool) (out : Tensor) (d tg : BatchValue)
    (loss : float) : list Event :=
  if is_train then
    [EvZeroGrad; EvForward true true d; EvMetrics out tg true; EvLoss out tg;
     EvBackward {| from_output := out; from_target := tg |};
     EvStep [{| from_output := out; from_target := tg |}];
     EvAppend true loss]
  else
    [EvForward false false d; EvMetrics out tg false; EvLoss out tg;
     EvAppend false loss].

(** The instance with its model put in training or evaluation mode. *)
Definition in_mode (is_train : bool) (s : TrainDataProcessor.t) : TrainDataProcessor.t :=
  TrainDataProcessor.set_super
    (DataProcessor.with_model (if is_train then Model.train else Model.eval)
       (TrainDataProcessor.super s)) s.

(** The instance with other gradients accumulated on its parameters. *)
Definition with_grad (g : list Gradient) (s : TrainDataProcessor.t) : TrainDataProcessor.t :=
  TrainDataProcessor.set_optimizer
    {| param_groups := param_groups (TrainDataProcessor.__optimizer s);
       buffers := buffers (TrainDataProcessor.__optimizer s);
       grad := g |} s.

(** The two loss histories, as stored. *)
Definition histories (s : TrainDataProcessor.t) : ndarray * ndarray :=
  (TrainDataProcessor.__train_loss_values s, TrainDataProcessor.__val_loss_values s).

(** What a gradient step can change. *)
Definition trained (s : TrainDataProcessor.t) : Optimizer * Weights :=
  (TrainDataProcessor.__optimizer s, Model.weights (TrainDataProcessor.model s)).

(** The history a batch of this kind is appended to. *)
Definition history_of (is_train : bool) (s : TrainDataProcessor.t) : ndarray :=
  if is_train then TrainDataProcessor.__train_loss_values s
  else TrainDataProcessor.__val_loss_values s.

(** The instance with other weights in its model. *)
Definition with_weights (w : Weights) (s : TrainDataProcessor.t) : TrainDataProcessor.t :=
  TrainDataProcessor.set_super
    (DataProcessor.with_model (Model.set_weights w) (TrainDataProcessor.super s)) s.

(** ** Concrete collaborators *)

Module Demo.
Import TrainDataProcessor.

(** An optimizer that serialises itself under the two keys torch uses
    and refuses a dict that lacks one of them or has another number of
    groups than it has. *)
Definition sgd_state_dict (o : Optimizer) : gmap string OptVal :=
  {[ "state" := Buffers (buffers o); "param_groups" := Groups (param_groups o) ]}.

Definition sgd_load_state_dict (d : gmap string OptVal) (o : Optimizer) : option Optimizer :=
  match d !! "state", d !! "param_groups" with
  | Some (Buffers b), Some (Groups gs) =>
      if decide (length gs = length (param_groups o))
      then Some {| param_groups := gs; buffers := b; grad := grad o |}
      else None
  | _, _ => None
  end.

(** A network that answers with its weights, a constant objective, a
    collector that records the loss it is shown. *)
Definition net : Collaborators :=
  {| forward := fun _ w _ => {| device := Cpu; values := w |};
     criterion := fun _ _ => 0.25%float;
     calc_metrics := fun _ _ _ mp => Some mp;
     optimizer_step := fun o w => (o, w);
     state_dict := sgd_state_dict;
     load_state_dict := sgd_load_state_dict |}.


Definition config : TrainConfig :=
  {| tc_metrics_processor := ∅;
     tc_learning_rate := 0.1%float;
     tc_optimizer := {| param_groups := [ {[ "lr" := 0.1%float ]} ];
                        buffers := [];
                        grad := [] |} |}.

Definition x : Tensor := {| device := Cpu; values := [1%float; 2%float] |}.
Definition y : Tensor := {| device := Cpu; values := [3%float] |}.

Definition data : BatchValue := Nested [("image", Leaf x)].
Definition target : BatchValue := Leaf y.

Definition batch : Batch := {[ "data" := data; "target" := target ]}.

Definition nothing : Files :=
  {| optimizer_state_file := None; data_processor_state_file := None; weights_file := None |}.

Definition fresh : t := __init__ [0.5%float] config true.

(** [process_batch(batch, ...)] on the fresh instance. *)
Definition call : Call t := {| self := fresh; arg := batch |}.

(** An instance whose parameter groups were given another rate than
    the holder reports. *)
Definition retuned : t := update_lr 0.5%float fresh.

(** A blob saved by an optimizer that kept one more entry. *)
Definition stale_blob : gmap string OptVal :=
  {[ "state" := Buffers [1%float];
     "param_groups" := Groups [ {[ "lr" := 0.3%float ]} ];
     "exp_avg" := Buffers [7%float] ]}.

Definition stale_checkpoint : Files :=
  {| optimizer_state_file := Some stale_blob;
     data_processor_state_file :=
       Some (json_dump {| last_epoch_idx := 4; lr := 0.3%float |});
     weights_file := Some [0.75%float] |}.


(** Dicts that lack an entry, an instance without device acceleration,
    and checkpoints that lack artifacts. *)
Definition no_data : Batch := {[ "target" := target ]}.
Definition no_target : Batch := {[ "data" := data ]}.
Definition on_cpu : t := __init__ [0.5%float] config false.

Definition weights_only : Files :=
  {| optimizer_state_file := None;
     data_processor_state_file := None;
     weights_file := Some [0.75%float] |}.

Definition no_state_file : Files :=
  {| optimizer_state_file := Some stale_blob;
     data_processor_state_file := None;
     weights_file := Some [0.75%float] |}.

Definition stale_optimizer : Optimizer :=
  {| param_groups := [ {[ "lr" := 0.3%float ]} ]; buffers := [1%float]; grad := [] |}.

(** A blob with a stale entry and two groups, and its checkpoint. *)
Definition two_group_blob : gmap string OptVal :=
  {[ "state" := Buffers [1%float];
     "param_groups" := Groups [ {[ "lr" := 0.3%float ]}; {[ "lr" := 0.3%float ]} ];
     "exp_avg" := Buffers [7%float] ]}.

Definition two_group_checkpoint : Files :=
  {| optimizer_state_file := Some two_group_blob;
     data_processor_state_file :=
       Some (json_dump {| last_epoch_idx := 4; lr := 0.3%float |});
     weights_file := Some [0.75%float] |}.

(** The stale blob with another rate in the structured state. *)
Definition lowered_checkpoint : Files :=
  {| optimizer_state_file := Some stale_blob;
     data_processor_state_file :=
       Some (json_dump {| last_epoch_idx := 4; lr := 0.2%float |});
     weights_file := Some [0.75%float] |}.

(** A structured state file without its ['lr'] entry. *)
Definition no_lr_checkpoint : Files :=
  {| optimizer_state_file := Some stale_blob;
     data_processor_state_file :=
       Some (Json {| epoch_entry := Some 4; lr_entry := None |});
     weights_file := Some [0.75%float] |}.
End Demo.

(** * Properties *)

(** ** Stepping through a method body *)

Section Stepping.
Context {S : Type}.

Lemma bind_unfold {A B} (m : M S A) (f : A -> M S B) (s : S) :
  (m ≫= f) s =
  match m s with
  | (Ok a, s1, l1) => let '(r, s2, l2) := f a s1 in (r, s2, l1 ++ l2)
  | (Raise e, s1, l1) => (Raise e, s1, l1)
  end.
Proof. reflexivity. Qed.

Lemma bind_ok {A B} (m : M S A) (f : A -> M S B) (s s1 : S) (a : A) (l1 : list Event) :
  m s = (Ok a, s1, l1) ->
  (m ≫= f) s = (result (f a s1), final (f a s1), l1 ++ calls (f a s1)).
Proof.
  intros E. rewrite bind_unfold, E. by destruct (f a s1) as [[r s2] l2].
Qed.

Lemma bind_raise {A B} (m : M S A) (f : A -> M S B) (s s1 : S) (e : exn) (l1 : list Event) :
  m s = (Raise e, s1, l1) -> (m ≫= f) s = (Raise e, s1, l1).
Proof. intros E. by rewrite bind_unfold, E. Qed.

Lemma outcome_eta {A} (o : res A * S * list Event) :
  o = (result o, final o, calls o).
Proof. by destruct o as [[r s] l]. Qed.
End Stepping.

(** Unfold the plumbing of a method body, leaving the calls it makes. *)
Ltac run_body :=
  unfold TrainDataProcessor.process_batch, TrainDataProcessor.predict,
    TrainDataProcessor.make_predict, DataProcessor.predict,
    DataProcessor.make_predict, TrainDataProcessor.load, DataProcessor.load,
    Model.load_weights, TrainDataProcessor.load_optimizer, read_file,
    json_load, entry,
    TrainDataProcessor.with_batch, TrainDataProcessor.last_item,
    when, on_self, TrainDataProcessor.on_super, TrainDataProcessor.as_super,
    DataProcessor.on_model, zoom, getitem, setitem, emit, gets, modify, raise,
    TrainDataProcessor.call_metrics, TrainDataProcessor.step, Model.call,
    calls, result, final, TrainDataProcessor.is_cuda, TrainDataProcessor.model,
    mbind, M_bind, mret, M_ret in *.

(** ** One batch *)

Section Batch.
Context `{co : Collaborators}.
Import TrainDataProcessor.

Lemma process_batch_returns (is_train : bool) (s : t) (b : Batch)
    (d tg : BatchValue) (mp : MetricsProcessor) :
  b !! "data" = Some d ->
  b !! "target" = Some tg ->
  calc_metrics (forward is_train (Model.weights (model s)) (moved (is_cuda s) d))
    (moved (is_cuda s) tg) is_train (metrics_processor s) = Some mp ->
  let out := forward is_train (Model.weights (model s)) (moved (is_cuda s) d) in
  let loss := criterion out (moved (is_cuda s) tg) in
  let o := process_batch is_train {| self := s; arg := b |} in
  result o = Ok tt
  /\ calls o = batch_calls is_train out (moved (is_cuda s) d) (moved (is_cuda s) tg) loss
  /\ arg (final o) = moved_batch (is_cuda s) d tg b
  /\ __train_loss_values (self (final o)) =
       (if is_train then np_append (__train_loss_values s) (Arr0 loss)
        else __train_loss_values s)
  /\ __val_loss_values (self (final o)) =
       (if is_train then __val_loss_values s
        else np_append (__val_loss_values s) (Arr0 loss))
  /\ __epoch_num (self (final o)) = __epoch_num s.
Proof.
  intros Hd Ht Hm; cbn zeta.
  unfold moved, moved_batch, batch_calls in *. run_body.
  destruct is_train, (DataProcessor._is_cuda (super s)) eqn:Hc;
    repeat progress (cbn; rewrite ?Hc; simplify_map_eq);
    try destruct (optimizer_step _ _) as [o w]; cbn; done.
Qed.
Lemma process_batch_metrics_raise (is_train : bool) (s : t) (b : Batch)
    (d tg : BatchValue) :
  b !! "data" = Some d ->
  b !! "target" = Some tg ->
  calc_metrics (forward is_train (Model.weights (model s)) (moved (is_cuda s) d))
    (moved (is_cuda s) tg) is_train (metrics_processor s) = None ->
  let out := forward is_train (Model.weights (model s)) (moved (is_cuda s) d) in
  let o := process_batch is_train {| self := s; arg := b |} in
  result o = Raise MetricsFailure
  /\ calls o = (if is_train then [EvZeroGrad] else []) ++
               [EvForward is_train is_train (moved (is_cuda s) d);
                EvMetrics out (moved (is_cuda s) tg) is_train]
  /\ arg (final o) = moved_batch (is_cuda s) d tg b
  /\ __train_loss_values (self (final o)) = __train_loss_values s
  /\ __val_loss_values (self (final o)) = __val_loss_values s
  /\ Model.weights (model (self (final o))) = Model.weights (model s)
  /\ buffers (__optimizer (self (final o))) = buffers (__optimizer s)
  /\ __epoch_num (self (final o)) = __epoch_num s.
Proof.
  intros Hd Ht Hm; cbn zeta.
  unfold moved, moved_batch in *. run_body.
  destruct is_train, (DataProcessor._is_cuda (super s)) eqn:Hc;
    repeat progress (cbn; rewrite ?Hc; simplify_map_eq); done.
Qed.

Lemma process_batch_ok_inv (is_train : bool) (c : Call t) :
  result (process_batch is_train c) = Ok tt ->
  exists d tg mp,
    arg c !! "data" = Some d /\ arg c !! "target" = Some tg /\
    calc_metrics
      (forward is_train (Model.weights (model (self c))) (moved (is_cuda (self c)) d))
      (moved (is_cuda (self c)) tg) is_train (metrics_processor (self c)) = Some mp.
Proof.
  destruct c as [s b]; cbn [self arg].
  destruct (b !! "data") as [d|] eqn:Hd, (b !! "target") as [tg|] eqn:Ht.
  - destruct (calc_metrics
      (forward is_train (Model.weights (model s)) (moved (is_cuda s) d))
      (moved (is_cuda s) tg) is_train (metrics_processor s)) as [mp|] eqn:Hm.
    + eauto 7.
    + destruct (process_batch_metrics_raise is_train s b d tg Hd Ht Hm) as [R _].
      cbn zeta in R. rewrite R. discriminate.
  - run_body.
    destruct is_train, (DataProcessor._is_cuda (super s)) eqn:Hc;
      repeat progress (cbn; rewrite ?Hc; simplify_map_eq); discriminate.
  - run_body.
    destruct is_train, (DataProcessor._is_cuda (super s)) eqn:Hc;
      repeat progress (cbn; rewrite ?Hc; simplify_map_eq); discriminate.
  - run_body.
    destruct is_train, (DataProcessor._is_cuda (super s)) eqn:Hc;
      repeat progress (cbn; rewrite ?Hc; simplify_map_eq); discriminate.
Qed.

Lemma leaves_bypass (f : Tensor -> Tensor) (v : BatchValue) :
  leaves (bypass_value f v) = map f (leaves v).
Proof.
  revert v. fix IH 1. intros [x|d]; cbn; [done|].
  induction d as [|[k v] d IHd]; cbn; [done|].
  by rewrite map_app, IHd, IH.
Qed.

Lemma _process_data_leaves (v : BatchValue) :
  leaves (DataProcessor._process_data v) = map to_cuda (leaves v).
Proof.
  destruct v as [x|d]; cbn; [done|].
  apply (leaves_bypass to_cuda (Nested d)).
Qed.

(** C5: a training batch zeroes the gradients, then runs the forward
    pass, then the metrics, then the loss, then backward and the
    optimizer step, then appends to the history; and whatever gradients
    had accumulated before the call (those of the previous training
    batch among them), the step is applied to the gradient of this
    batch alone. *)
Theorem process_batch_train_order (s : t) (b : Batch) (d tg : BatchValue)
    (mp : MetricsProcessor) :
  b !! "data" = Some d ->
  b !! "target" = Some tg ->
  calc_metrics (forward true (Model.weights (model s)) (moved (is_cuda s) d))
    (moved (is_cuda s) tg) true (metrics_processor s) = Some mp ->
  let out := forward true (Model.weights (model s)) (moved (is_cuda s) d) in
  let g := {| from_output := out; from_target := moved (is_cuda s) tg |} in
  result (process_batch true {| self := s; arg := b |}) = Ok tt
  /\ calls (process_batch true {| self := s; arg := b |}) =
       [EvZeroGrad;
        EvForward true true (moved (is_cuda s) d);
        EvMetrics out (moved (is_cuda s) tg) true;
        EvLoss out (moved (is_cuda s) tg);
        EvBackward g;
        EvStep [g];
        EvAppend true (criterion out (moved (is_cuda s) tg))].
Proof.
  intros Hd Ht Hm; cbn zeta.
  destruct (process_batch_returns true s b d tg mp Hd Ht Hm) as (R & L & _).
  by split.
Qed.

(** C3 (as the code has it): a batch that runs to its end appends
    exactly one number to one history, but [get_losses] shows the
    history of the training batches under ['validation'] and the one of
    the validation batches under ['train']. *)
Theorem process_batch_history_key (is_train : bool) (c : Call t) :
  result (process_batch is_train c) = Ok tt ->
  let before := get_losses (self c) in
  let after := get_losses (self (final (process_batch is_train c))) in
  let shown := if is_train then "validation" else "train" in
  let other := if is_train then "train" else "validation" in
  exists a loss,
    before !! shown = Some a
    /\ after !! shown = Some (np_append a (Arr0 loss))
    /\ size_of (np_append a (Arr0 loss)) = Datatypes.S (size_of a)
    /\ after !! other = before !! other.
Proof.
  intros R; cbn zeta.
  destruct (process_batch_ok_inv is_train c R) as (d & tg & mp & Hd & Ht & Hm).
  destruct c as [s b]; cbn [self arg] in *.
  destruct (process_batch_returns is_train s b d tg mp Hd Ht Hm)
    as (_ & _ & _ & Tr & Va & _).
  cbn zeta in Tr, Va.
  set (loss := criterion _ _) in *.
  exists (if is_train then __train_loss_values s else __val_loss_values s), loss.
  unfold get_losses; rewrite Tr, Va.
  destruct is_train; simplify_map_eq; repeat split;
    unfold size_of, np_append; cbn; rewrite ?length_app; cbn; lia.
Qed.


(** C10: with device acceleration on, [predict] (of either class)
    leaves the caller's dict with its ['data'] entry replaced by the
    transferred one, and [process_batch] leaves it with both ['target']
    and ['data'] replaced, whether or not the batch runs to its end;
    every tensor of a replaced entry is on the device. *)
Theorem batch_written_in_place (is_train : bool) (s : t) (b : Batch)
    (d tg : BatchValue) :
  is_cuda s = true ->
  b !! "data" = Some d ->
  b !! "target" = Some tg ->
  arg (final (DataProcessor.predict {| self := super s; arg := b |}))
    = <["data" := DataProcessor._process_data d]> b
  /\ arg (final (predict is_train {| self := s; arg := b |}))
    = <["data" := DataProcessor._process_data d]> b
  /\ arg (final (process_batch is_train {| self := s; arg := b |}))
    = <["data" := DataProcessor._process_data d]>
        (<["target" := DataProcessor._process_data tg]> b)
  /\ Forall (fun x => device x = Cuda0) (leaves (DataProcessor._process_data d))
  /\ Forall (fun x => device x = Cuda0) (leaves (DataProcessor._process_data tg)).
Proof.
  intros Hc Hd Ht.
  assert (Hc' : DataProcessor._is_cuda (super s) = true) by done.
  split; [|split; [|split; [|split]]].
  - run_body. repeat progress (cbn; rewrite ?Hc'; simplify_map_eq). done.
  - run_body.
    destruct is_train; repeat progress (cbn; rewrite ?Hc'; simplify_map_eq); done.
  - destruct (calc_metrics
      (forward is_train (Model.weights (model s)) (moved (is_cuda s) d))
      (moved (is_cuda s) tg) is_train (metrics_processor s)) as [mp|] eqn:Hm.
    + destruct (process_batch_returns is_train s b d tg mp Hd Ht Hm)
        as (_ & _ & A & _).
      cbn zeta in A. by rewrite A, Hc.
    + destruct (process_batch_metrics_raise is_train s b d tg Hd Ht Hm)
        as (_ & _ & A & _).
      cbn zeta in A. by rewrite A, Hc.
  - rewrite _process_data_leaves. by apply Forall_map, Forall_true.
  - rewrite _process_data_leaves. by apply Forall_map, Forall_true.
Qed.
End Batch.

(** ** Checkpoints *)

Section Checkpoint.
Context `{co : Collaborators}.
Import TrainDataProcessor.

(** The dict [load] hands to the optimizer. *)
Lemma kept_restricted (own blob : gmap string OptVal) :
  filter (fun kv => is_Some (own !! kv.1)) blob = restricted_to (dom own) blob.
Proof.
  unfold restricted_to. apply map_filter_ext. intros k v _.
  by rewrite elem_of_dom.
Qed.

Lemma restricted_to_lookup (keys : gset string) (blob : gmap string OptVal) (k : string) :
  restricted_to keys blob !! k = if decide (k ∈ keys) then blob !! k else None.
Proof.
  unfold restricted_to. destruct (blob !! k) as [v|] eqn:E.
  - case_decide.
    + by apply map_lookup_filter_Some.
    + apply map_lookup_filter_None. right. intros v' E' Hk. done.
  - case_decide; apply map_lookup_filter_None; by left.
Qed.

Lemma restricted_to_dom (keys : gset string) (blob : gmap string OptVal) :
  keys ⊆ dom blob -> dom (restricted_to keys blob) = keys.
Proof.
  intros Hsub. apply set_eq. intros k.
  rewrite elem_of_dom, restricted_to_lookup.
  case_decide as Hk.
  - split; [done|]. intros _. by apply elem_of_dom, Hsub.
  - split; [by intros [? ?]|done].
Qed.

Lemma update_lr_groups (v : float) (s : t) :
  Forall (fun param_group => param_group !! "lr" = Some v)
         (param_groups (__optimizer (update_lr v s))).
Proof.
  cbn. apply Forall_map, Forall_true. intros g. cbn. by rewrite lookup_insert_eq.
Qed.

Lemma load_returns (fs : Files) (s : t) (w : Weights) (blob : gmap string OptVal)
    (dp : DpState) (o : Optimizer) :
  weights_file fs = Some w ->
  optimizer_state_file fs = Some blob ->
  data_processor_state_file fs = Some (json_dump dp) ->
  load_state_dict (restricted_to (dom (state_dict (__optimizer s))) blob)
    (__optimizer s) = Some o ->
  load fs s = (Ok tt, loaded w o dp s, []).
Proof.
  intros Hw Hb Hd Ho. rewrite <- kept_restricted in Ho.
  run_body. rewrite Hw, Hb, Hd. cbn. rewrite Ho. done.
Qed.

Lemma load_rejected (fs : Files) (s : t) (w : Weights) (blob : gmap string OptVal) :
  weights_file fs = Some w ->
  optimizer_state_file fs = Some blob ->
  load_state_dict (restricted_to (dom (state_dict (__optimizer s))) blob)
    (__optimizer s) = None ->
  load fs s = (Raise OptimizerStateRejected, with_weights w s, []).
Proof.
  intros Hw Hb Ho. rewrite <- kept_restricted in Ho.
  run_body. rewrite Hw, Hb. cbn. by rewrite Ho.
Qed.

Lemma load_after_save (s fresh : t) (fs : Files) (o : Optimizer) :
  load_state_dict
    (restricted_to (dom (state_dict (__optimizer fresh))) (state_dict (__optimizer s)))
    (__optimizer fresh) = Some o ->
  load (save_state s fs) fresh =
    (Ok tt,
     loaded (Model.weights (model s)) o
       {| last_epoch_idx := __epoch_num s; lr := __learning_rate s |} fresh,
     []).
Proof.
  intros Ho. by apply (load_returns _ _ _ (state_dict (__optimizer s))).
Qed.

(** C1 (as the code has it): [save_state] and then [load] on a fresh
    instance whose optimizer takes the saved state give an instance
    with the epoch index and the learning-rate holder value of the
    original at the save; the learning rate of every parameter group is
    the original's holder value, which [load] writes over whatever
    rates the groups were saved with. *)
Theorem save_load_roundtrip (s fresh : t) (fs : Files) (o : Optimizer) :
  load_state_dict
    (restricted_to (dom (state_dict (__optimizer fresh))) (state_dict (__optimizer s)))
    (__optimizer fresh) = Some o ->
  exists s',
    load (save_state s fs) fresh = (Ok tt, s', [])
    /\ get_last_epoch_idx s' = get_last_epoch_idx s
    /\ __learning_rate s' = __learning_rate s
    /\ Forall (fun param_group => param_group !! "lr" = Some (__learning_rate s))
              (param_groups (__optimizer s'))
    /\ Model.weights (model s') = Model.weights (model s).
Proof.
  intros Ho. eexists. split; [by apply load_after_save|].
  repeat split; try done.
  apply (update_lr_groups (__learning_rate s)).
Qed.

(** C2 (as the code has it): [update_lr] writes the parameter groups
    and leaves the learning-rate holder alone, and [save_state]
    persists the holder's value; so after [update_lr(v)], [save_state]
    and a [load] on a new instance, the restored holder reports what
    the original holder reported, which is [v] when the holder held
    [v]. *)
Theorem update_lr_save_load (v : float) (s fresh : t) (fs : Files) (o : Optimizer) :
  load_state_dict
    (restricted_to (dom (state_dict (__optimizer fresh)))
       (state_dict (__optimizer (update_lr v s))))
    (__optimizer fresh) = Some o ->
  __learning_rate (update_lr v s) = __learning_rate s
  /\ exists s',
    load (save_state (update_lr v s) fs) fresh = (Ok tt, s', [])
    /\ __learning_rate s' = __learning_rate s
    /\ (__learning_rate s = v -> __learning_rate s' = v).
Proof.
  intros Ho. split; [done|].
  eexists. split; [by apply load_after_save|]. by split.
Qed.

(** C6 (as the code has it): when the keys of the current optimizer's
    state are a strict subset of the keys of the saved blob, [load]
    hands the optimizer the blob restricted to the optimizer's own keys:
    a dict with exactly those keys and the blob's values under them.
    With the weight artifact and a well-formed structured state file
    there, [load] returns when the optimizer takes that dict, and the
    optimizer then is what [load_state_dict] made of it with the rate of
    every group overwritten by the persisted one; when the optimizer
    refuses the dict, [load] raises what the optimizer raised. *)
Theorem load_drops_stale_keys (fs : Files) (s : t) (w : Weights)
    (blob : gmap string OptVal) (dp : DpState) :
  weights_file fs = Some w ->
  optimizer_state_file fs = Some blob ->
  data_processor_state_file fs = Some (json_dump dp) ->
  dom (state_dict (__optimizer s)) ⊂ dom blob ->
  let own := state_dict (__optimizer s) in
  let kept := filter (fun kv => is_Some (own !! kv.1)) blob in
  kept = restricted_to (dom own) blob
  /\ dom kept = dom own
  /\ (forall k, k ∈ dom own -> kept !! k = blob !! k)
  /\ (forall k, k ∉ dom own -> kept !! k = None)
  /\ match load_state_dict kept (__optimizer s) with
     | Some o =>
         load fs s = (Ok tt, loaded w o dp s, [])
         /\ __optimizer (loaded w o dp s)
              = __optimizer (update_lr (lr dp) (set_optimizer o s))
     | None => load fs s = (Raise OptimizerStateRejected, with_weights w s, [])
     end.
Proof.
  intros Hw Hb Hd [Hsub _] own kept. subst own kept.
  rewrite (kept_restricted (state_dict (__optimizer s)) blob).
  split; [done|]. split; [by apply restricted_to_dom|].
  split; [intros k Hk; rewrite restricted_to_lookup; by case_decide|].
  split; [intros k Hk; rewrite restricted_to_lookup; by case_decide|].
  destruct (load_state_dict _ _) as [o|] eqn:Ho.
  - split; [|done]. by apply (load_returns fs s w blob dp o).
  - by apply (load_rejected fs s w blob).
Qed.

(** C7: when the weight artifact or the optimizer artifact is absent,
    [load] raises [CheckpointMissing] and the epoch counter is what it
    was before the call. *)
Theorem load_missing_checkpoint (fs : Files) (s : t) :
  weights_file fs = None \/ optimizer_state_file fs = None ->
  result (load fs s) = Raise CheckpointMissing
  /\ get_last_epoch_idx (final (load fs s)) = get_last_epoch_idx s.
Proof.
  intros Hmiss. unfold get_last_epoch_idx. run_body.
  destruct (weights_file fs); cbn; [|done].
  destruct Hmiss as [?|Hb]; [done|]. by rewrite Hb.
Qed.
End Checkpoint.

(** ** What a method leaves alone *)

Section Frame.
Context {S X : Type} (f : S -> X).

Lemma keeps_ret {A} (a : A) : keeps f (mret a).
Proof. done. Qed.


Lemma keeps_gets {A} (g : S -> A) : keeps f (gets g).
Proof. done. Qed.



Lemma keeps_bind {A B} (m : M S A) (k : A -> M S B) :
  keeps f m -> (forall a, keeps f (k a)) -> keeps f (m ≫= k).
Proof.
  intros Hm Hk s. rewrite bind_unfold.
  specialize (Hm s). destruct (m s) as [[[a|e] s1] l1]; unfold final in *; cbn in *.
  - specialize (Hk a s1). destruct (k a s1) as [[r s2] l2]; unfold final in *; cbn in *.
    congruence.
  - done.
Qed.



End Frame.

Section Epoch.
Context `{co : Collaborators}.
Import TrainDataProcessor.















End Epoch.

(** ** The epoch counter and the loss histories *)

Section Lifetime.
Context `{co : Collaborators}.
Import TrainDataProcessor.


(** C4 (as the code has it): after [reset_losses] each of the two
    histories [get_losses] returns is a zero-dimensional array, which
    holds one number (whatever the memory held) and is not an empty
    sequence; the arrays the constructor makes are empty. *)
Theorem reset_losses_not_empty (junk_val junk_train : float) (s : t) :
  get_losses (reset_losses junk_val junk_train s) !! "train" = Some (Arr0 junk_val)
  /\ get_losses (reset_losses junk_val junk_train s) !! "validation" = Some (Arr0 junk_train)
  /\ (forall key a,
        get_losses (reset_losses junk_val junk_train s) !! key = Some a ->
        ndim a = 0%nat /\ size_of a = 1%nat /\ ~ is_empty_sequence a)
  /\ (forall model train_pipeline cuda key a,
        get_losses (__init__ model train_pipeline cuda) !! key = Some a ->
        is_empty_sequence a).
Proof.
  unfold get_losses, reset_losses. cbn.
  split; [by simplify_map_eq|]. split; [by simplify_map_eq|]. split.
  - intros key a Ha.
    destruct (decide (key = "train")) as [->|]; simplify_map_eq; done.
  - intros _ _ _ key a Ha.
    destruct (decide (key = "train")) as [->|]; simplify_map_eq; done.
Qed.
End Lifetime.

(** ** The properties on concrete runs *)

Lemma float_apart (test : float -> bool) (a b : float) : test a <> test b -> a <> b.
Proof. congruence. Qed.

Lemma save_load_roundtrip_witness :
  exists s',
    TrainDataProcessor.load (co := Demo.net)
      (TrainDataProcessor.save_state (co := Demo.net) Demo.retuned Demo.nothing)
      Demo.fresh = (Ok tt, s', [])
    /\ TrainDataProcessor.get_last_epoch_idx s' = 0
    /\ TrainDataProcessor.__learning_rate s' = 0.1%float
    /\ Forall (fun param_group => param_group !! "lr" = Some 0.1%float)
              (param_groups (TrainDataProcessor.__optimizer s'))
    /\ Model.weights (TrainDataProcessor.model s') = [0.5%float].
Proof.
  apply (save_load_roundtrip (co := Demo.net) Demo.retuned Demo.fresh Demo.nothing
           {| param_groups := [ {[ "lr" := 0.5%float ]} ]; buffers := []; grad := [] |}).
  vm_compute. reflexivity.
Defined.

(** C1, where it fails: the groups of the original carry 0.5 at the
    save, the holder reports 0.1, and the loaded instance has 0.1 in its
    groups. *)
Lemma roundtrip_changes_group_rates :
  exists s',
    TrainDataProcessor.load (co := Demo.net)
      (TrainDataProcessor.save_state (co := Demo.net) Demo.retuned Demo.nothing)
      Demo.fresh = (Ok tt, s', [])
    /\ group_rates (TrainDataProcessor.__optimizer Demo.retuned) = [Some 0.5%float]
    /\ group_rates (TrainDataProcessor.__optimizer s') = [Some 0.1%float]
    /\ group_rates (TrainDataProcessor.__optimizer s')
         <> group_rates (TrainDataProcessor.__optimizer Demo.retuned).
Proof.
  eexists. split; [vm_compute; reflexivity|].
  split; [vm_compute; reflexivity|]. split; [vm_compute; reflexivity|].
  vm_compute. intros E.
  assert (E' : (0.1 = 0.5)%float) by congruence.
  revert E'. apply (float_apart (fun v => PrimFloat.ltb v 0.3%float)). vm_compute. discriminate.
Qed.

Lemma update_lr_save_load_witness :
  TrainDataProcessor.__learning_rate (TrainDataProcessor.update_lr 0.01%float Demo.fresh) = 0.1%float
  /\ exists s',
    TrainDataProcessor.load (co := Demo.net)
      (TrainDataProcessor.save_state (co := Demo.net)
         (TrainDataProcessor.update_lr 0.01%float Demo.fresh) Demo.nothing)
      Demo.fresh = (Ok tt, s', [])
    /\ TrainDataProcessor.__learning_rate s' = 0.1%float
    /\ (0.1%float = 0.01%float -> TrainDataProcessor.__learning_rate s' = 0.01%float).
Proof.
  apply (update_lr_save_load (co := Demo.net) 0.01%float Demo.fresh Demo.fresh Demo.nothing
           {| param_groups := [ {[ "lr" := 0.01%float ]} ]; buffers := []; grad := [] |}).
  vm_compute. reflexivity.
Defined.

(** C2, where it fails: the holder reports 0.1, [update_lr(0.01)] is
    called, the state is saved and loaded, and the restored holder
    reports 0.1. *)
Lemma update_lr_value_not_restored :
  exists s',
    TrainDataProcessor.load (co := Demo.net)
      (TrainDataProcessor.save_state (co := Demo.net)
         (TrainDataProcessor.update_lr 0.01%float Demo.fresh) Demo.nothing)
      Demo.fresh = (Ok tt, s', [])
    /\ TrainDataProcessor.__learning_rate s' = 0.1%float
    /\ TrainDataProcessor.__learning_rate s' <> 0.01%float.
Proof.
  eexists. split; [vm_compute; reflexivity|]. split; [vm_compute; reflexivity|].
  vm_compute.
  apply (float_apart (fun v => PrimFloat.ltb v 0.05%float)). vm_compute. discriminate.
Qed.

Lemma process_batch_history_key_witness :
  result (TrainDataProcessor.process_batch (co := Demo.net) true Demo.call) = Ok tt
  /\ exists a loss,
      TrainDataProcessor.get_losses (self Demo.call) !! "validation" = Some a
      /\ TrainDataProcessor.get_losses
           (self (final (TrainDataProcessor.process_batch (co := Demo.net) true Demo.call)))
           !! "validation" = Some (np_append a (Arr0 loss))
      /\ size_of (np_append a (Arr0 loss)) = Datatypes.S (size_of a)
      /\ TrainDataProcessor.get_losses
           (self (final (TrainDataProcessor.process_batch (co := Demo.net) true Demo.call)))
           !! "train" = TrainDataProcessor.get_losses (self Demo.call) !! "train".
Proof.
  split; [reflexivity|].
  apply (process_batch_history_key (co := Demo.net) true Demo.call). reflexivity.
Defined.

(** C3, on the fresh instance: after one training batch the sequence
    under ['train'] is still empty and the loss is under ['validation']. *)
Lemma train_loss_under_validation :
  let s' := self (final (TrainDataProcessor.process_batch (co := Demo.net) true Demo.call)) in
  TrainDataProcessor.get_losses s' !! "train" = Some (Arr1 [])
  /\ TrainDataProcessor.get_losses s' !! "validation" = Some (Arr1 [0.25%float]).
Proof. split; vm_compute; reflexivity. Qed.

(** C4, on the fresh instance after one training batch and a reset: the
    next training batch leaves a history of two numbers, the first of
    them the junk. *)
Lemma history_after_reset (junk_val junk_train : float) :
  let s1 := self (final (TrainDataProcessor.process_batch (co := Demo.net) true Demo.call)) in
  let s2 := TrainDataProcessor.reset_losses junk_val junk_train s1 in
  let s3 := self (final (TrainDataProcessor.process_batch (co := Demo.net) true
                           {| self := s2; arg := Demo.batch |})) in
  TrainDataProcessor.__train_loss_values s2 = Arr0 junk_train
  /\ TrainDataProcessor.__train_loss_values s3 = Arr1 [junk_train; 0.25%float].
Proof. split; vm_compute; reflexivity. Qed.

Lemma process_batch_train_order_witness :
  let out := {| device := Cpu; values := [0.5%float] |} in
  let d := Nested [("image", Leaf (to_cuda Demo.x))] in
  let tg := Leaf (to_cuda Demo.y) in
  result (TrainDataProcessor.process_batch (co := Demo.net) true Demo.call) = Ok tt
  /\ calls (TrainDataProcessor.process_batch (co := Demo.net) true Demo.call) =
       [EvZeroGrad; EvForward true true d; EvMetrics out tg true; EvLoss out tg;
        EvBackward {| from_output := out; from_target := tg |};
        EvStep [{| from_output := out; from_target := tg |}];
        EvAppend true 0.25%float].
Proof.
  apply (process_batch_train_order (co := Demo.net) Demo.fresh Demo.batch
           Demo.data Demo.target ∅); reflexivity.
Defined.

Lemma load_drops_stale_keys_witness :
  result (TrainDataProcessor.load (co := Demo.net) Demo.stale_checkpoint Demo.fresh) = Ok tt
  /\ dom (filter (fun kv => is_Some (state_dict (Collaborators := Demo.net)
                                       (TrainDataProcessor.__optimizer Demo.fresh) !! kv.1))
            Demo.stale_blob) = {[ "state"; "param_groups" ]}
  /\ group_rates (TrainDataProcessor.__optimizer
       (final (TrainDataProcessor.load (co := Demo.net) Demo.stale_checkpoint Demo.fresh)))
     = [Some 0.3%float].
Proof.
  pose proof (load_drops_stale_keys (co := Demo.net) Demo.stale_checkpoint Demo.fresh
                [0.75%float] Demo.stale_blob {| last_epoch_idx := 4; lr := 0.3%float |}
                eq_refl eq_refl eq_refl) as H.
  cbv zeta in H. destruct H as (_ & D & _ & _ & L); [compute_done|].
  assert (A : load_state_dict (Collaborators := Demo.net)
                (filter (fun kv => is_Some (state_dict (Collaborators := Demo.net)
                                              (TrainDataProcessor.__optimizer Demo.fresh) !! kv.1))
                        Demo.stale_blob)
                (TrainDataProcessor.__optimizer Demo.fresh) = Some Demo.stale_optimizer)
    by (vm_compute; reflexivity).
  rewrite A in L. destruct L as [L O].
  split; [by rewrite L|]. split; [etransitivity; [exact D|]; vm_compute; reflexivity|].
  rewrite L. unfold final; cbn [fst snd]. rewrite O. vm_compute. reflexivity.
Defined.

(** C6, where it fails: the keys of the optimizer are a strict subset of
    the keys of the blob, yet the optimizer refuses the restricted dict
    (it has one group, the blob has two) and [load] raises; and where
    the optimizer takes the dict, it ends with the persisted rate in its
    groups and not with the rate of the restricted blob. *)
Lemma stale_keys_load_rejected :
  let own := state_dict (Collaborators := Demo.net)
               (TrainDataProcessor.__optimizer Demo.fresh) in
  (dom own ⊂ dom Demo.two_group_blob
   /\ result (TrainDataProcessor.load (co := Demo.net) Demo.two_group_checkpoint Demo.fresh)
        = Raise OptimizerStateRejected)
  /\ (dom own ⊂ dom Demo.stale_blob
      /\ result (TrainDataProcessor.load (co := Demo.net) Demo.lowered_checkpoint Demo.fresh)
           = Ok tt
      /\ restricted_to (dom own) Demo.stale_blob !! "param_groups"
           = Some (Groups [ {[ "lr" := 0.3%float ]} ])
      /\ state_dict (Collaborators := Demo.net)
           (TrainDataProcessor.__optimizer
              (final (TrainDataProcessor.load (co := Demo.net)
                        Demo.lowered_checkpoint Demo.fresh))) !! "param_groups"
           = Some (Groups [ {[ "lr" := 0.2%float ]} ])
      /\ state_dict (Collaborators := Demo.net)
           (TrainDataProcessor.__optimizer
              (final (TrainDataProcessor.load (co := Demo.net)
                        Demo.lowered_checkpoint Demo.fresh)))
           <> restricted_to (dom own) Demo.stale_blob).
Proof.
  cbv zeta. split.
  - split; [compute_done|vm_compute; reflexivity].
  - split; [compute_done|]. split; [vm_compute; reflexivity|].
    split; [vm_compute; reflexivity|]. split; [vm_compute; reflexivity|].
    intros E. apply (f_equal (fun m => m !! "param_groups")) in E.
    vm_compute in E.
    assert (E' : (0.2 = 0.3)%float) by congruence.
    revert E'. apply (float_apart (fun v => PrimFloat.ltb v 0.25%float)).
    vm_compute. discriminate.
Qed.

Lemma load_missing_checkpoint_witness :
  result (TrainDataProcessor.load (co := Demo.net) Demo.nothing Demo.fresh)
    = Raise CheckpointMissing
  /\ TrainDataProcessor.get_last_epoch_idx
       (final (TrainDataProcessor.load (co := Demo.net) Demo.nothing Demo.fresh)) = 0.
Proof.
  apply (load_missing_checkpoint (co := Demo.net) Demo.nothing Demo.fresh).
  left. reflexivity.
Defined.




Lemma batch_written_in_place_witness :
  arg (final (TrainDataProcessor.process_batch (co := Demo.net) true Demo.call))
    = {[ "data" := Nested [("image", Leaf (to_cuda Demo.x))];
         "target" := Leaf (to_cuda Demo.y) ]}
  /\ arg (final (TrainDataProcessor.predict (co := Demo.net) false Demo.call))
    = {[ "data" := Nested [("image", Leaf (to_cuda Demo.x))];
         "target" := Leaf Demo.y ]}.
Proof.
  destruct (batch_written_in_place (co := Demo.net) true Demo.fresh Demo.batch
              Demo.data Demo.target) as (_ & _ & B & _);
    [reflexivity|reflexivity|reflexivity|].
  destruct (batch_written_in_place (co := Demo.net) false Demo.fresh Demo.batch
              Demo.data Demo.target) as (_ & P & _);
    [reflexivity|reflexivity|reflexivity|].
  split.
  - etransitivity; [exact B|]. vm_compute. reflexivity.
  - etransitivity; [exact P|]. vm_compute. reflexivity.
Defined.


(** ** More on [predict] *)

(** Step through a body on a batch whose entries are known. *)
Ltac crunch Hc := repeat progress (cbn; rewrite ?Hc; simplify_map_eq).

Section Predict.
Context `{co : Collaborators}.
Import TrainDataProcessor.

(** [predict] on a batch with a ['data'] entry returns the forward pass
    of the (transferred) entry, run in training mode with gradients when
    [is_train] and in evaluation mode without them otherwise; of the
    instance it changes the mode of the model and nothing else. *)
Theorem predict_returns (is_train : bool) (s : t) (b : Batch) (d : BatchValue) :
  b !! "data" = Some d ->
  predict is_train {| self := s; arg := b |} =
    (Ok (forward is_train (Model.weights (model s)) (moved (is_cuda s) d)),
     {| self := in_mode is_train s;
        arg := if is_cuda s then <["data" := DataProcessor._process_data d]> b else b |},
     [EvForward is_train is_train (moved (is_cuda s) d)]).
Proof.
  intros Hd. unfold moved, in_mode. run_body.
  destruct is_train, (DataProcessor._is_cuda (super s)) eqn:Hc; crunch Hc; done.
Qed.

(** [predict] on a batch without a ['data'] entry raises [KeyError]
    before any forward pass; the mode of the model has been set all the
    same, and the dict is as it was. *)
Theorem predict_missing_data (is_train : bool) (s : t) (b : Batch) :
  b !! "data" = None ->
  predict is_train {| self := s; arg := b |} =
    (Raise (KeyError "data"), {| self := in_mode is_train s; arg := b |}, []).
Proof.
  intros Hd. unfold in_mode. run_body.
  destruct is_train, (DataProcessor._is_cuda (super s)) eqn:Hc; crunch Hc; done.
Qed.

(** [DataProcessor.predict] runs the forward pass in evaluation mode
    with gradients off, whatever mode the model was in, and changes
    nothing of the processor but that mode. *)
Theorem base_predict_returns (p : DataProcessor.t) (b : Batch) (d : BatchValue) :
  b !! "data" = Some d ->
  DataProcessor.predict {| self := p; arg := b |} =
    (Ok (forward false (Model.weights (DataProcessor._model p))
           (moved (DataProcessor._is_cuda p) d)),
     {| self := DataProcessor.with_model Model.eval p;
        arg := if DataProcessor._is_cuda p
               then <["data" := DataProcessor._process_data d]> b else b |},
     [EvForward false false (moved (DataProcessor._is_cuda p) d)]).
Proof.
  intros Hd. unfold moved. run_body.
  destruct (DataProcessor._is_cuda p) eqn:Hc; crunch Hc; done.
Qed.
End Predict.

(** ** More on one batch *)

Section BatchOutcome.
Context `{co : Collaborators}.
Import TrainDataProcessor.

(** With device acceleration on, a batch without a ['target'] entry is
    refused before anything is touched: no call is made, and the
    instance and the dict are as they were. *)
Theorem process_batch_missing_target (is_train : bool) (s : t) (b : Batch) :
  is_cuda s = true ->
  b !! "target" = None ->
  process_batch is_train {| self := s; arg := b |} =
    (Raise (KeyError "target"), {| self := s; arg := b |}, []).
Proof.
  intros Hc Ht. assert (Hc' : DataProcessor._is_cuda (super s) = true) by done.
  run_body. destruct is_train; crunch Hc'; done.
Qed.

(** A batch with a ['target'] but without a ['data'] entry raises
    [KeyError] before any forward pass, after the target has been
    transferred, the gradients zeroed (when training) and the mode of
    the model set. *)
Theorem process_batch_missing_data (is_train : bool) (s : t) (b : Batch)
    (tg : BatchValue) :
  b !! "data" = None ->
  b !! "target" = Some tg ->
  process_batch is_train {| self := s; arg := b |} =
    (Raise (KeyError "data"),
     {| self := in_mode is_train (if is_train then with_grad [] s else s);
        arg := if is_cuda s then <["target" := DataProcessor._process_data tg]> b else b |},
     if is_train then [EvZeroGrad] else []).
Proof.
  intros Hd Ht. unfold in_mode, with_grad. run_body.
  destruct is_train, (DataProcessor._is_cuda (super s)) eqn:Hc; crunch Hc; done.
Qed.

(** A batch that returned had both entries and a collector that
    returned; it made the calls of a complete batch in their order,
    wrote the transferred entries to the dict (with device
    acceleration) and kept what the collector returned. *)
Theorem process_batch_returned (is_train : bool) (s : t) (b : Batch) :
  let o := process_batch is_train {| self := s; arg := b |} in
  result o = Ok tt ->
  exists d tg mp,
    b !! "data" = Some d
    /\ b !! "target" = Some tg
    /\ calc_metrics
         (forward is_train (Model.weights (model s)) (moved (is_cuda s) d))
         (moved (is_cuda s) tg) is_train (metrics_processor s) = Some mp
    /\ calls o =
         batch_calls is_train
           (forward is_train (Model.weights (model s)) (moved (is_cuda s) d))
           (moved (is_cuda s) d) (moved (is_cuda s) tg)
           (criterion
              (forward is_train (Model.weights (model s)) (moved (is_cuda s) d))
              (moved (is_cuda s) tg))
    /\ arg (final o) = moved_batch (is_cuda s) d tg b
    /\ Model.training (model (self (final o))) = is_train.
Proof.
  cbn zeta. intros R.
  destruct (process_batch_ok_inv is_train _ R) as (d & tg & mp & Hd & Ht & Hm).
  cbn [self arg] in *. exists d, tg, mp.
  destruct (process_batch_returns is_train s b d tg mp Hd Ht Hm) as (_ & L & A & _).
  cbn zeta in L, A. repeat split; try done.
  clear R L A. unfold moved in Hm. run_body.
  destruct is_train, (DataProcessor._is_cuda (super s)) eqn:Hc; crunch Hc;
    try destruct (optimizer_step _ _) as [o w]; done.
Qed.
End BatchOutcome.

Section BatchEffects.
Context `{co : Collaborators}.
Import TrainDataProcessor.

(** A validation batch, however it ends, leaves the optimizer (its
    groups, its buffers and the accumulated gradients) and the weights of
    the model as they were. *)
Theorem validation_batch_trains_nothing (c : Call t) :
  trained (self (final (process_batch false c))) = trained (self c).
Proof.
  destruct c as [s b]. unfold trained.
  destruct (b !! "target") as [tg|] eqn:Ht, (b !! "data") as [d|] eqn:Hd;
    run_body; destruct (DataProcessor._is_cuda (super s)) eqn:Hc; crunch Hc;
    try done; destruct (calc_metrics _ _ _ _); crunch Hc; done.
Qed.

(** A training batch that runs to its end leaves the optimizer and the
    weights that one optimizer step gives from the weights before the
    call and the gradient of this batch alone. *)
Theorem training_batch_step (s : t) (b : Batch) (d tg : BatchValue)
    (mp : MetricsProcessor) :
  b !! "data" = Some d ->
  b !! "target" = Some tg ->
  calc_metrics (forward true (Model.weights (model s)) (moved (is_cuda s) d))
    (moved (is_cuda s) tg) true (metrics_processor s) = Some mp ->
  let out := forward true (Model.weights (model s)) (moved (is_cuda s) d) in
  let g := {| from_output := out; from_target := moved (is_cuda s) tg |} in
  trained (self (final (process_batch true {| self := s; arg := b |}))) =
    optimizer_step (backward g (zero_grad (__optimizer s))) (Model.weights (model s))
  /\ metrics_processor (self (final (process_batch true {| self := s; arg := b |}))) = mp
  /\ __learning_rate (self (final (process_batch true {| self := s; arg := b |})))
       = __learning_rate s.
Proof.
  intros Hd Ht Hm; cbn zeta. unfold trained, moved in *. run_body.
  destruct (DataProcessor._is_cuda (super s)) eqn:Hc; crunch Hc;
    by destruct (optimizer_step _ _) as [o w].
Qed.

(** What a training batch does, and how it ends, does not depend on the
    gradients that had accumulated before the call. *)
Theorem training_batch_forgets_gradients (g : list Gradient) (s : t) (b : Batch)
    (tg : BatchValue) :
  b !! "target" = Some tg ->
  process_batch true {| self := with_grad g s; arg := b |} =
  process_batch true {| self := s; arg := b |}.
Proof.
  intros Ht. unfold with_grad.
  destruct (b !! "data") as [d|] eqn:Hd;
    run_body; destruct (DataProcessor._is_cuda (super s)) eqn:Hc; crunch Hc; done.
Qed.

(** Without device acceleration neither [predict] nor [process_batch]
    writes to the caller's dict, whatever the dict holds and however the
    call ends. *)
Theorem batch_untouched_without_cuda (is_train : bool) (s : t) (b : Batch) :
  is_cuda s = false ->
  arg (final (predict is_train {| self := s; arg := b |})) = b
  /\ arg (final (process_batch is_train {| self := s; arg := b |})) = b.
Proof.
  intros Hc. assert (Hc' : DataProcessor._is_cuda (super s) = false) by done.
  split.
  - destruct (b !! "data") as [d|] eqn:Hd;
      run_body; destruct is_train; crunch Hc'; done.
  - destruct (b !! "target") as [tg|] eqn:Ht, (b !! "data") as [d|] eqn:Hd;
      run_body; destruct is_train; crunch Hc';
      try done; destruct (calc_metrics _ _ _ _); crunch Hc'; try done;
      by destruct (optimizer_step _ _).
Qed.
End BatchEffects.

(** ** More on one epoch *)

Section EpochLoop.
Context `{co : Collaborators}.
Import TrainDataProcessor.

Lemma with_batch_keeps {A X} (obs : t -> X) (batch : Batch) (m : M (Call t) A) :
  keeps (fun c => obs (self c)) m -> keeps obs (with_batch batch m).
Proof.
  intros Hm s. specialize (Hm {| self := s; arg := batch |}).
  unfold with_batch, final in *. cbn [self arg] in *.
  by destruct (m _) as [[r c] l].
Qed.

Lemma last_item_keeps {X} (obs : t -> X) (a : ndarray) : keeps obs (last_item a).
Proof. destruct a as [x|xs]; [done|]. cbn. by destruct (last xs). Qed.

Lemma validation_batch_keeps_trained :
  keeps (fun c => trained (self c)) (process_batch false).
Proof.
  intros [s b]. unfold trained.
  destruct (b !! "target") as [tg|] eqn:Ht, (b !! "data") as [d|] eqn:Hd;
    run_body; destruct (DataProcessor._is_cuda (super s)) eqn:Hc; crunch Hc;
    try done; destruct (calc_metrics _ _ _ _); crunch Hc; done.
Qed.

Lemma validation_pass_keeps_trained (dataloader : list Batch) :
  keeps trained (each_batch false dataloader).
Proof.
  induction dataloader as [|batch rest IH]; cbn [each_batch].
  - apply keeps_ret.
  - apply keeps_bind; [|intros _; apply keeps_bind; [apply keeps_gets|intros a]].
    + apply with_batch_keeps, validation_batch_keeps_trained.
    + apply keeps_bind; [apply last_item_keeps|intros _; apply IH].
Qed.

(** The validation batches of an epoch have no part in what the epoch
    leaves in the optimizer and in the weights: these are what the
    training batches alone leave. *)
Theorem validation_pass_trains_nothing (tr va : list Batch) (idx : Z) (s : t) :
  trained (final (train_epoch tr va idx s)) = trained (final (train_epoch tr [] idx s)).
Proof.
  unfold train_epoch. rewrite !bind_unfold.
  destruct (each_batch true tr s) as [[[[]|e] s1] l1]; [|done].
  rewrite !bind_unfold.
  pose proof (validation_pass_keeps_trained va s1) as K. unfold final in K.
  destruct (each_batch false va s1) as [[[[]|e] s2] l2]; cbn in *; done.
Qed.

(** One turn of the loop: the read of the last loss for the progress
    bar always finds one, so the loop goes on exactly when the batch
    returned. *)
Lemma each_batch_cons (is_train : bool) (batch : Batch) (rest : list Batch) (s : t) :
  each_batch is_train (batch :: rest) s =
    let o := process_batch is_train {| self := s; arg := batch |} in
    match result o with
    | Ok _ =>
        (result (each_batch is_train rest (self (final o))),
         final (each_batch is_train rest (self (final o))),
         calls o ++ calls (each_batch is_train rest (self (final o))))
    | Raise e => (Raise e, self (final o), calls o)
    end.
Proof.
  cbn zeta. cbn [each_batch]. rewrite bind_unfold. unfold with_batch.
  destruct (result (process_batch is_train {| self := s; arg := batch |})) as [[]|e] eqn:R.
  - destruct (process_batch_ok_inv is_train _ R) as (d & tg & mp & Hd & Ht & Hm).
    cbn [self arg] in *.
    destruct (process_batch_returns is_train s batch d tg mp Hd Ht Hm)
      as (_ & _ & _ & Tr & Va & _). cbn zeta in Tr, Va.
    destruct (process_batch is_train {| self := s; arg := batch |}) as [[r c] l].
    unfold result, final, calls in *; cbn in *. subst r.
    rewrite !bind_unfold. unfold gets.
    assert (L : exists x, last_item ((if is_train then __train_loss_values
                                      else __val_loss_values) (self c)) (self c)
                          = (Ok x, self c, [])).
    { destruct is_train; [rewrite Tr|rewrite Va]; unfold np_append, last_item;
        cbn [ravel]; rewrite last_snoc; by eexists. }
    destruct L as [x L]. rewrite bind_unfold, L.
    by destruct (each_batch is_train rest (self c)) as [[r2 s2] l2].
  - destruct (process_batch is_train {| self := s; arg := batch |}) as [[r c] l].
    unfold result, final, calls in *; cbn in *. by subst r.
Qed.

Lemma each_batch_grows (is_train : bool) (dataloader : list Batch) (s : t) :
  result (each_batch is_train dataloader s) = Ok tt ->
  size_of (history_of is_train (final (each_batch is_train dataloader s)))
    = (size_of (history_of is_train s) + length dataloader)%nat
  /\ history_of (negb is_train) (final (each_batch is_train dataloader s))
    = history_of (negb is_train) s.
Proof.
  revert s. induction dataloader as [|batch rest IH]; intros s R.
  - cbn. split; [lia|done].
  - rewrite each_batch_cons in *. cbn zeta in *.
    destruct (result (process_batch is_train {| self := s; arg := batch |}))
      as [[]|e] eqn:R1; [|done].
    unfold result, final in R |- *; cbn in R |- *.
    destruct (IH _ R) as [G F]. unfold final in G, F. rewrite G, F.
    destruct (process_batch_ok_inv is_train _ R1) as (d & tg & mp & Hd & Ht & Hm).
    cbn [self arg] in *.
    destruct (process_batch_returns is_train s batch d tg mp Hd Ht Hm)
      as (_ & _ & _ & Tr & Va & _). cbn zeta in Tr, Va. unfold final in Tr, Va.
    unfold history_of. destruct is_train; cbn [negb]; rewrite Tr, Va;
      (split; [|done]); unfold size_of, np_append; cbn [ravel];
      rewrite length_app; cbn; lia.
Qed.

(** An epoch that runs to its end has appended one loss per training
    batch to the training history and one per validation batch to the
    validation history, and has set the epoch counter to [epoch_idx]. *)
Theorem train_epoch_grows (tr va : list Batch) (idx : Z) (s : t) :
  result (train_epoch tr va idx s) = Ok tt ->
  let s' := final (train_epoch tr va idx s) in
  size_of (__train_loss_values s') = (size_of (__train_loss_values s) + length tr)%nat
  /\ size_of (__val_loss_values s') = (size_of (__val_loss_values s) + length va)%nat
  /\ get_last_epoch_idx s' = idx.
Proof.
  cbn zeta. unfold train_epoch. rewrite !bind_unfold.
  pose proof (each_batch_grows true tr s) as G1.
  destruct (each_batch true tr s) as [[[[]|e] s1] l1]; [|done].
  specialize (G1 eq_refl). destruct G1 as [G1 F1]. unfold final in G1, F1; cbn in G1, F1.
  rewrite !bind_unfold.
  pose proof (each_batch_grows false va s1) as G2.
  destruct (each_batch false va s1) as [[[[]|e] s2] l2]; [|done].
  specialize (G2 eq_refl). destruct G2 as [G2 F2]. unfold final in G2, F2; cbn in G2, F2.
  intros _. unfold final; cbn. rewrite F2, G1, G2, F1. done.
Qed.

End EpochLoop.

(** ** More on the learning rate and on checkpoints *)

Section Rates.
Context `{co : Collaborators}.
Import TrainDataProcessor.

(** [update_lr] gives every parameter group the rate, keeps the number
    of groups and every other entry of every group, and of two calls in
    a row the second is the one that counts. *)
Theorem update_lr_overwrites (a v : float) (s : t) :
  update_lr a (update_lr v s) = update_lr a s
  /\ group_rates (__optimizer (update_lr a s))
       = replicate (length (param_groups (__optimizer s))) (Some a)
  /\ (forall i g k,
        param_groups (__optimizer s) !! i = Some g -> k <> "lr" ->
        exists g', param_groups (__optimizer (update_lr a s)) !! i = Some g'
                   /\ g' !! k = g !! k /\ g' !! "lr" = Some a)
  /\ (forall i, param_groups (__optimizer s) !! i = None ->
                param_groups (__optimizer (update_lr a s)) !! i = None).
Proof.
  split; [|split; [|split]].
  - unfold update_lr, set_optimizer; cbn. do 2 f_equal.
    rewrite map_map. apply map_ext. intros g. apply insert_insert_eq.
  - unfold group_rates; cbn. rewrite map_map.
    induction (param_groups (__optimizer s)) as [|g gs IH]; cbn; [done|].
    by rewrite lookup_insert_eq, IH.
  - intros i g k Hg Hk. exists (<["lr" := a]> g). cbn.
    change (map ?f ?l) with (f <$> l). rewrite list_lookup_fmap, Hg. cbn.
    split; [done|]. split; [by rewrite lookup_insert_ne|by rewrite lookup_insert_eq].
  - intros i Hg. cbn. change (map ?f ?l) with (f <$> l).
    by rewrite list_lookup_fmap, Hg.
Qed.
End Rates.

Section CheckpointMore.
Context `{co : Collaborators}.
Import TrainDataProcessor.

(** When the structured state file has its ['last_epoch_idx'] entry but
    no ['lr'] entry, [load] raises [KeyError] with the epoch counter
    already set to the number read, on top of the weights and the
    optimizer state of the checkpoint; the rates of the groups and the
    learning-rate holder are not restored. *)
Theorem load_moves_epoch_before_lr (fs : Files) (s : t) (w : Weights)
    (blob : gmap string OptVal) (o : Optimizer) (e : Z) :
  weights_file fs = Some w ->
  optimizer_state_file fs = Some blob ->
  load_state_dict (restricted_to (dom (state_dict (__optimizer s))) blob)
    (__optimizer s) = Some o ->
  data_processor_state_file fs = Some (Json {| epoch_entry := Some e; lr_entry := None |}) ->
  load fs s =
    (Raise (KeyError "lr"), set_epoch_num e (set_optimizer o (with_weights w s)), []).
Proof.
  intros Hw Hb Ho Hd. rewrite <- kept_restricted in Ho.
  run_body. rewrite Hw, Hb, Hd. cbn. rewrite Ho. done.
Qed.

(** Without the weight artifact [load] raises at once and the instance
    is as it was, all of it. *)
Theorem load_without_weights (fs : Files) (s : t) :
  weights_file fs = None ->
  load fs s = (Raise CheckpointMissing, s, []).
Proof.
  intros Hw. run_body. rewrite Hw. cbn.
  by destruct s as [[cu md] mp lr o e va tr].
Qed.

(** When only the structured state file is missing, [load] raises with
    the weights and the optimizer state of the checkpoint already in
    place, and with the epoch counter, the rates of the groups and the
    learning-rate holder not restored. *)
Theorem load_stops_half_way (fs : Files) (s : t) (w : Weights)
    (blob : gmap string OptVal) (o : Optimizer) :
  weights_file fs = Some w ->
  optimizer_state_file fs = Some blob ->
  load_state_dict (restricted_to (dom (state_dict (__optimizer s))) blob)
    (__optimizer s) = Some o ->
  data_processor_state_file fs = None ->
  load fs s = (Raise CheckpointMissing, set_optimizer o (with_weights w s), []).
Proof.
  intros Hw Hb Ho Hd. rewrite <- kept_restricted in Ho.
  run_body. rewrite Hw, Hb, Hd. cbn. rewrite Ho. done.
Qed.

(** When the optimizer artifact is missing, or the optimizer refuses the
    restricted blob, [load] raises with the weights of the checkpoint
    already in the model and nothing else changed. *)
Theorem load_stops_after_weights (fs : Files) (s : t) (w : Weights) :
  weights_file fs = Some w ->
  match optimizer_state_file fs with
  | None => load fs s = (Raise CheckpointMissing, with_weights w s, [])
  | Some blob =>
      load_state_dict (restricted_to (dom (state_dict (__optimizer s))) blob)
        (__optimizer s) = None ->
      load fs s = (Raise OptimizerStateRejected, with_weights w s, [])
  end.
Proof.
  intros Hw. destruct (optimizer_state_file fs) as [blob|] eqn:Hb.
  - intros Ho. rewrite <- kept_restricted in Ho.
    run_body. rewrite Hw, Hb. cbn. by rewrite Ho.
  - run_body. by rewrite Hw, Hb.
Qed.

(** A [save_state] after a [load] that returned writes back the
    structured state and the weights that were loaded, whatever the
    files it writes to held. *)
Theorem load_then_save (fs fs2 : Files) (s : t) :
  result (load fs s) = Ok tt ->
  data_processor_state_file (save_state (final (load fs s)) fs2)
    = data_processor_state_file fs
  /\ weights_file (save_state (final (load fs s)) fs2) = weights_file fs.
Proof.
  intros R.
  destruct (weights_file fs) as [w|] eqn:Hw;
    [|by revert R; run_body; rewrite Hw].
  destruct (optimizer_state_file fs) as [blob|] eqn:Hb;
    [|by revert R; run_body; rewrite Hw, Hb].
  destruct (load_state_dict (restricted_to (dom (state_dict (__optimizer s))) blob)
              (__optimizer s)) as [o|] eqn:Ho.
  - destruct (data_processor_state_file fs) as [[|[[e|] [r|]]]|] eqn:Hd.
    + rewrite <- kept_restricted in Ho. revert R.
      run_body. rewrite Hw, Hb, Hd. cbn. by rewrite Ho.
    + rewrite (load_returns fs s w blob {| last_epoch_idx := e; lr := r |} o Hw Hb Hd Ho).
      done.
    + rewrite <- kept_restricted in Ho. revert R.
      run_body. rewrite Hw, Hb, Hd. cbn. by rewrite Ho.
    + rewrite <- kept_restricted in Ho. revert R.
      run_body. rewrite Hw, Hb, Hd. cbn. by rewrite Ho.
    + rewrite <- kept_restricted in Ho. revert R.
      run_body. rewrite Hw, Hb, Hd. cbn. by rewrite Ho.
    + rewrite <- kept_restricted in Ho. revert R.
      run_body. rewrite Hw, Hb, Hd. cbn. by rewrite Ho.
  - rewrite <- kept_restricted in Ho. revert R.
    run_body. rewrite Hw, Hb. cbn. by rewrite Ho.
Qed.
End CheckpointMore.

(** ** More on the device transfer *)

Lemma bypass_value_idempotent (f : Tensor -> Tensor) :
  (forall x, f (f x) = f x) ->
  forall v, bypass_value f (bypass_value f v) = bypass_value f v.
Proof.
  intros Hf. fix IH 1. intros [x|d]; cbn; [by rewrite Hf|]. f_equal.
  induction d as [|[k v] d IHd]; cbn; [done|].
  by rewrite IH, IHd.
Qed.

(** [_process_data] keeps the numbers of every tensor, in order, puts
    every tensor on the device, and a second transfer changes nothing. *)
Theorem _process_data_transfer (v : BatchValue) :
  map values (leaves (DataProcessor._process_data v)) = map values (leaves v)
  /\ Forall (fun x => device x = Cuda0) (leaves (DataProcessor._process_data v))
  /\ DataProcessor._process_data (DataProcessor._process_data v)
       = DataProcessor._process_data v.
Proof.
  split; [|split].
  - rewrite _process_data_leaves, map_map. by apply map_ext.
  - rewrite _process_data_leaves. by apply Forall_map, Forall_true.
  - destruct v as [x|d]; cbn; [done|].
    apply (bypass_value_idempotent to_cuda (fun x => eq_refl) (Nested d)).
Qed.

(** ** The further properties on concrete runs *)

Lemma predict_returns_witness :
  TrainDataProcessor.predict (co := Demo.net) true Demo.call =
    (Ok {| device := Cpu; values := [0.5%float] |},
     {| self := in_mode true Demo.fresh;
        arg := <["data" := DataProcessor._process_data Demo.data]> Demo.batch |},
     [EvForward true true (Nested [("image", Leaf (to_cuda Demo.x))])]).
Proof.
  apply (predict_returns (co := Demo.net) true Demo.fresh Demo.batch Demo.data).
  reflexivity.
Defined.

Lemma predict_missing_data_witness :
  TrainDataProcessor.predict (co := Demo.net) false
    {| self := Demo.fresh; arg := Demo.no_data |} =
    (Raise (KeyError "data"), {| self := in_mode false Demo.fresh; arg := Demo.no_data |}, []).
Proof.
  apply (predict_missing_data (co := Demo.net) false Demo.fresh Demo.no_data).
  reflexivity.
Defined.

Lemma base_predict_returns_witness :
  result (DataProcessor.predict (co := Demo.net)
            {| self := TrainDataProcessor.super Demo.fresh; arg := Demo.batch |})
    = Ok {| device := Cpu; values := [0.5%float] |}
  /\ Model.training (DataProcessor._model
        (self (final (DataProcessor.predict (co := Demo.net)
            {| self := TrainDataProcessor.super Demo.fresh; arg := Demo.batch |})))) = false.
Proof.
  rewrite (base_predict_returns (co := Demo.net) (TrainDataProcessor.super Demo.fresh)
             Demo.batch Demo.data eq_refl).
  split; reflexivity.
Defined.

Lemma process_batch_missing_target_witness :
  TrainDataProcessor.process_batch (co := Demo.net) true
    {| self := Demo.fresh; arg := Demo.no_target |} =
    (Raise (KeyError "target"), {| self := Demo.fresh; arg := Demo.no_target |}, []).
Proof.
  apply (process_batch_missing_target (co := Demo.net) true Demo.fresh Demo.no_target);
    reflexivity.
Defined.

Lemma process_batch_missing_data_witness :
  TrainDataProcessor.process_batch (co := Demo.net) true
    {| self := Demo.fresh; arg := Demo.no_data |} =
    (Raise (KeyError "data"),
     {| self := in_mode true (with_grad [] Demo.fresh);
        arg := <["target" := DataProcessor._process_data Demo.target]> Demo.no_data |},
     [EvZeroGrad]).
Proof.
  apply (process_batch_missing_data (co := Demo.net) true Demo.fresh Demo.no_data Demo.target);
    reflexivity.
Defined.

Lemma training_batch_step_witness :
  trained (self (final (TrainDataProcessor.process_batch (co := Demo.net) true Demo.call)))
    = ({| param_groups := [ {[ "lr" := 0.1%float ]} ];
          buffers := [];
          grad := [ {| from_output := {| device := Cpu; values := [0.5%float] |};
                       from_target := Leaf (to_cuda Demo.y) |} ] |},
       [0.5%float]).
Proof.
  destruct (training_batch_step (co := Demo.net) Demo.fresh Demo.batch Demo.data
              Demo.target ∅) as [T _]; [reflexivity|reflexivity|reflexivity|].
  etransitivity; [exact T|]. vm_compute. reflexivity.
Defined.

Lemma training_batch_forgets_gradients_witness :
  TrainDataProcessor.process_batch (co := Demo.net) true
    {| self := with_grad [ {| from_output := Demo.x; from_target := Demo.target |} ] Demo.fresh;
       arg := Demo.batch |}
  = TrainDataProcessor.process_batch (co := Demo.net) true Demo.call.
Proof.
  apply (training_batch_forgets_gradients (co := Demo.net)
           [ {| from_output := Demo.x; from_target := Demo.target |} ]
           Demo.fresh Demo.batch Demo.target).
  reflexivity.
Defined.

Lemma batch_untouched_without_cuda_witness :
  arg (final (TrainDataProcessor.predict (co := Demo.net) true
                {| self := Demo.on_cpu; arg := Demo.batch |})) = Demo.batch
  /\ arg (final (TrainDataProcessor.process_batch (co := Demo.net) true
                {| self := Demo.on_cpu; arg := Demo.batch |})) = Demo.batch.
Proof.
  apply (batch_untouched_without_cuda (co := Demo.net) true Demo.on_cpu Demo.batch).
  reflexivity.
Defined.

Lemma train_epoch_grows_witness :
  let s' := final (TrainDataProcessor.train_epoch (co := Demo.net)
                     [Demo.batch; Demo.batch; Demo.batch] [Demo.batch] 1 Demo.fresh) in
  size_of (TrainDataProcessor.__train_loss_values s') = 3%nat
  /\ size_of (TrainDataProcessor.__val_loss_values s') = 1%nat
  /\ TrainDataProcessor.get_last_epoch_idx s' = 1.
Proof.
  apply (train_epoch_grows (co := Demo.net)
           [Demo.batch; Demo.batch; Demo.batch] [Demo.batch] 1 Demo.fresh).
  vm_compute. reflexivity.
Defined.

Lemma load_without_weights_witness :
  TrainDataProcessor.load (co := Demo.net) Demo.nothing Demo.retuned
    = (Raise CheckpointMissing, Demo.retuned, []).
Proof.
  apply (load_without_weights (co := Demo.net) Demo.nothing Demo.retuned). reflexivity.
Defined.

Lemma load_stops_half_way_witness :
  TrainDataProcessor.load (co := Demo.net) Demo.no_state_file Demo.fresh
    = (Raise CheckpointMissing,
       TrainDataProcessor.set_optimizer Demo.stale_optimizer
         (with_weights [0.75%float] Demo.fresh), []).
Proof.
  apply (load_stops_half_way (co := Demo.net) Demo.no_state_file Demo.fresh
           [0.75%float] Demo.stale_blob Demo.stale_optimizer);
    vm_compute; reflexivity.
Defined.

Lemma load_stops_after_weights_witness :
  TrainDataProcessor.load (co := Demo.net) Demo.weights_only Demo.fresh
    = (Raise CheckpointMissing, with_weights [0.75%float] Demo.fresh, []).
Proof.
  apply (load_stops_after_weights (co := Demo.net) Demo.weights_only Demo.fresh [0.75%float]).
  reflexivity.
Defined.

Lemma load_then_save_witness :
  data_processor_state_file
    (TrainDataProcessor.save_state (co := Demo.net)
       (final (TrainDataProcessor.load (co := Demo.net) Demo.stale_checkpoint Demo.fresh))
       Demo.nothing)
    = Some (json_dump {| last_epoch_idx := 4; lr := 0.3%float |})
  /\ weights_file
    (TrainDataProcessor.save_state (co := Demo.net)
       (final (TrainDataProcessor.load (co := Demo.net) Demo.stale_checkpoint Demo.fresh))
       Demo.nothing)
    = Some [0.75%float].
Proof.
  apply (load_then_save (co := Demo.net) Demo.stale_checkpoint Demo.nothing Demo.fresh).
  vm_compute. reflexivity.
Defined.

Lemma process_batch_returned_witness :
  exists d tg mp,
    Demo.batch !! "data" = Some d
    /\ Demo.batch !! "target" = Some tg
    /\ calc_metrics (Collaborators := Demo.net)
         (forward (Collaborators := Demo.net) false
            (Model.weights (TrainDataProcessor.model Demo.fresh))
            (moved (TrainDataProcessor.is_cuda Demo.fresh) d))
         (moved (TrainDataProcessor.is_cuda Demo.fresh) tg) false
         (TrainDataProcessor.metrics_processor Demo.fresh) = Some mp
    /\ calls (TrainDataProcessor.process_batch (co := Demo.net) false Demo.call) =
         batch_calls false
           (forward (Collaborators := Demo.net) false
              (Model.weights (TrainDataProcessor.model Demo.fresh))
              (moved (TrainDataProcessor.is_cuda Demo.fresh) d))
           (moved (TrainDataProcessor.is_cuda Demo.fresh) d)
           (moved (TrainDataProcessor.is_cuda Demo.fresh) tg)
           (criterion (Collaborators := Demo.net)
              (forward (Collaborators := Demo.net) false
                 (Model.weights (TrainDataProcessor.model Demo.fresh))
                 (moved (TrainDataProcessor.is_cuda Demo.fresh) d))
              (moved (TrainDataProcessor.is_cuda Demo.fresh) tg))
    /\ arg (final (TrainDataProcessor.process_batch (co := Demo.net) false Demo.call))
         = moved_batch (TrainDataProcessor.is_cuda Demo.fresh) d tg Demo.batch
    /\ Model.training (TrainDataProcessor.model
         (self (final (TrainDataProcessor.process_batch (co := Demo.net) false Demo.call))))
         = false.
Proof.
  apply (process_batch_returned (co := Demo.net) false Demo.fresh Demo.batch).
  vm_compute. reflexivity.
Defined.


Lemma load_moves_epoch_before_lr_witness :
  TrainDataProcessor.load (co := Demo.net) Demo.no_lr_checkpoint Demo.fresh
    = (Raise (KeyError "lr"),
       TrainDataProcessor.set_epoch_num 4
         (TrainDataProcessor.set_optimizer Demo.stale_optimizer
            (with_weights [0.75%float] Demo.fresh)), []).
Proof.
  apply (load_moves_epoch_before_lr (co := Demo.net) Demo.no_lr_checkpoint Demo.fresh
           [0.75%float] Demo.stale_blob Demo.stale_optimizer 4);
    vm_compute; reflexivity.
Defined.
